(** * Offshore Pipeline Projects Dashboard: the filter engine and the data store

    A shallow embedding of [src/streamlit_app.py]:
    - the pandas DataFrame as a list of typed columns and a list of rows;
    - [create_filter_sidebar] (the filter engine), with the Streamlit session
      state seen through its three widget key families
      ([filter_<col>], [slider_<col>], [date_<col>]);
    - the "Select All" / "Clear All" buttons;
    - [load_pipeline_data], [save_pipeline_data], [add_new_pipeline_row],
      the upload path and the "Add New Row" form of [main], over an explicit
      store (session state plus the backing CSV file).

    Numbers are modelled as integers ([Z]) and dates as [yyyymmdd] integers:
    the code only compares them with each other and with bounds. *)

From Stdlib Require Import ZArith String Ascii List Bool Lia.
From stdpp Require Import base list strings gmap pretty.

Import ListNotations.

(* ------------------------------------------------------------------ *)
(** ** Data model *)

(** A cell: [VNaN] is pandas' missing value (NaN / NaT / None). *)
Inductive value :=
  | VNaN
  | VStr (s : string)
  | VNum (z : Z)
  | VDate (ymd : Z).

#[global] Instance value_eq_dec : EqDecision value.
Proof. solve_decision. Defined.

(** The dtypes pandas gives the columns of this application's tables:
    [read_csv], [read_excel] and [concat] produce object, int/float/bool
    (numeric) and datetime64 columns. *)
Inductive dtype := DObject | DNumeric | DDatetime.

#[global] Instance dtype_eq_dec : EqDecision dtype.
Proof. solve_decision. Defined.

Record column := mkColumn { col_name : string; col_dtype : dtype }.

Definition row := list value.

(** A DataFrame: its columns in order and its rows (one value per column).
    Rows are addressed by position; a column by its position [i], which is
    what [df[column]] denotes since column names are unique. *)
Record table := mkTable { columns : list column; rows : list row }.

(** [r[i]]; a missing cell reads as NaN. *)
Definition cell (r : row) (i : nat) : value := nth i r VNaN.

Definition column_values (t : table) (i : nat) : list value :=
  map (fun r => cell r i) (rows t).

(** [DataFrame.empty]: true when either axis has length zero. *)
Definition df_empty (t : table) : bool :=
  match columns t, rows t with
  | [], _ | _, [] => true
  | _, _ => false
  end.

(* ------------------------------------------------------------------ *)
(** ** Column helpers used by [create_filter_sidebar] *)

Definition is_nan (v : value) : bool :=
  match v with VNaN => true | _ => false end.

(** [Series.isin(values)] (pandas' [isin] matches equal values). *)
Definition isin (v : value) (sel : list value) : bool :=
  existsb (fun w => bool_decide (v = w)) sel.

(** [dedup_first xs]: the distinct elements in order of first occurrence. *)
Fixpoint dedup_first (seen : list value) (xs : list value) : list value :=
  match xs with
  | [] => []
  | x :: xs' =>
      if isin x seen then dedup_first seen xs'
      else x :: dedup_first (x :: seen) xs'
  end.

(** [series.dropna().unique()] *)
Definition unique_non_na (vals : list value) : list value :=
  dedup_first [] (List.filter (fun v => negb (is_nan v)) vals).

(** [(float(s.min()), float(s.max()))] of a numeric series, skipping NaN;
    [None] when [s.isna().all()]. *)
Fixpoint num_bounds (vals : list value) : option (Z * Z) :=
  match vals with
  | [] => None
  | VNum z :: vs =>
      match num_bounds vs with
      | Some (mn, mx) => Some (Z.min z mn, Z.max z mx)
      | None => Some (z, z)
      end
  | _ :: vs => num_bounds vs
  end.

(** [pd.to_datetime(x, errors='coerce')] on a datetime64 cell. *)
Definition as_date (v : value) : option Z :=
  match v with VDate d => Some d | _ => None end.

(** [valid_dates.min().date()] and [.max().date()]; [None] when
    [len(valid_dates) == 0]. *)
Fixpoint date_bounds (vals : list value) : option (Z * Z) :=
  match vals with
  | [] => None
  | v :: vs =>
      match as_date v, date_bounds vs with
      | Some d, Some (mn, mx) => Some (Z.min d mn, Z.max d mx)
      | Some d, None => Some (d, d)
      | None, b => b
      end
  end.

(** [c.lower()] on ASCII letters. *)
Definition lower_ascii (c : ascii) : ascii :=
  let n := nat_of_ascii c in
  if (65 <=? n)%nat && (n <=? 90)%nat then ascii_of_nat (n + 32) else c.

Fixpoint str_lower (s : string) : string :=
  match s with
  | EmptyString => EmptyString
  | String c s' => String (lower_ascii c) (str_lower s')
  end.

(** ['date' in column.lower()] *)
Definition has_date_token (name : string) : bool :=
  match String.index 0 "date" (str_lower name) with
  | Some _ => true
  | None => false
  end.

(* ------------------------------------------------------------------ *)
(** ** The filter engine: [create_filter_sidebar] *)

(** The per-column widget values held in [st.session_state], one map per
    key family: [filter_<col>] (multiselect), [slider_<col>] (range slider)
    and [date_<col>] (date_input, a tuple of one or two dates). *)
Record selections := mkSelections {
  sel_filter : gmap string (list value);
  sel_slider : gmap string (Z * Z);
  sel_date : gmap string (list Z)
}.

Definition no_selections : selections := mkSelections ∅ ∅ ∅.

(** Which [if/elif] branch of the column loop a column takes (lines 120,
    145 and 163). *)
Inductive branch := BCategorical | BNumeric | BDate | BNone.

Definition branch_of (c : column) : branch :=
  if bool_decide (col_dtype c = DObject) then BCategorical
  else if bool_decide (col_dtype c = DNumeric) then BNumeric
  else if has_date_token (col_name c) then BDate
  else BNone.

(** The control rendered for a column and the value the widget returns:
    a multiselect list, a slider range, or a date_input tuple. *)
Inductive control :=
  | CCat (sel : list value)
  | CNum (lo hi : Z)
  | CDate (rng : list Z).

(** The widget shown for column [c] (at position [i] of [t]) and its
    current value: the session-state entry if there is one, else the
    widget's default. All bounds are computed on the unfiltered [df]. *)
Definition control_of (t : table) (sels : selections) (i : nat) (c : column)
    : option control :=
  let vals := column_values t i in
  match branch_of c with
  | BCategorical =>
      match unique_non_na vals with
      | [] => None
      | _ => Some (CCat (default [] (sel_filter sels !! col_name c)))
      end
  | BNumeric =>
      match num_bounds vals with
      | Some (mn, mx) =>
          if Z.eqb mn mx then None
          else
            let '(lo, hi) := default (mn, mx) (sel_slider sels !! col_name c) in
            Some (CNum lo hi)
      | None => None
      end
  | BDate =>
      match date_bounds vals with
      | Some (mn, mx) => Some (CDate (default [mn; mx] (sel_date sels !! col_name c)))
      | None => None
      end
  | BNone => None
  end.

(** [s >= lo] and [s <= hi] on a cell: any comparison with NaN is false. *)
Definition num_ge (v : value) (lo : Z) : bool :=
  match v with VNum z => Z.leb lo z | _ => false end.
Definition num_le (v : value) (hi : Z) : bool :=
  match v with VNum z => Z.leb z hi | _ => false end.

Definition date_ge (v : value) (lo : Z) : bool :=
  match as_date v with Some d => Z.leb lo d | None => false end.
Definition date_le (v : value) (hi : Z) : bool :=
  match as_date v with Some d => Z.leb d hi | None => false end.

(** The narrowing of [filtered_df] by one column's control (lines 142-143,
    158-161 and 180-185). *)
Definition apply_control (k : control) (i : nat) (rs : list row) : list row :=
  match k with
  | CCat selected_values =>
      match selected_values with
      | [] => rs
      | _ => List.filter (fun r => isin (cell r i) selected_values) rs
      end
  | CNum lo hi =>
      List.filter (fun r => num_ge (cell r i) lo && num_le (cell r i) hi) rs
  | CDate rng =>
      match rng with
      | [start_date; end_date] =>
          List.filter (fun r => date_ge (cell r i) start_date
                                && date_le (cell r i) end_date) rs
      | _ => rs
      end
  end.

(** [for column in df.columns: ...] threading [filtered_df]. *)
Fixpoint filter_columns (t : table) (sels : selections) (i : nat)
    (cs : list column) (filtered : list row) : list row :=
  match cs with
  | [] => filtered
  | c :: cs' =>
      let filtered' :=
        match control_of t sels i c with
        | Some k => apply_control k i filtered
        | None => filtered
        end in
      filter_columns t sels (S i) cs' filtered'
  end.

(** [create_filter_sidebar(df)]: [filtered_df = df.copy()], then the
    column loop; the columns are those of [df]. *)
Definition create_filter_sidebar (t : table) (sels : selections) : table :=
  mkTable (columns t) (filter_columns t sels 0 (columns t) (rows t)).

(** "Select All" (lines 106-109): for every object column,
    [filter_<col> := df[col].dropna().unique().tolist()], then
    [st.rerun()]. The rerun ends the run before any slider, date_input or
    checkbox is drawn, and Streamlit counts it as a finished run: the
    state of the widgets not drawn in it is discarded, so sliders and date
    ranges start again from their defaults (checkbox states are reset as
    well, see [create_filter_sidebar_styled]). The [filter_<col>] values
    set through [st.session_state] are kept. *)
Fixpoint select_all_go (t : table) (i : nat) (cs : list column)
    (m : gmap string (list value)) : gmap string (list value) :=
  match cs with
  | [] => m
  | c :: cs' =>
      let m' := if bool_decide (col_dtype c = DObject)
                then <[col_name c := unique_non_na (column_values t i)]> m
                else m in
      select_all_go t (S i) cs' m'
  end.

Definition select_all (t : table) (sels : selections) : selections :=
  mkSelections (select_all_go t 0 (columns t) (sel_filter sels)) ∅ ∅.

(** "Clear All" (lines 111-115): deletes the [filter_<col>] keys of the
    columns of [df], then [st.rerun()], which (as for "Select All")
    discards the slider, date_input and checkbox states. *)
Definition clear_all (t : table) (sels : selections) : selections :=
  mkSelections
    (foldr (fun c m => delete (col_name c) m) (sel_filter sels) (columns t)) ∅ ∅.

(** "The row's value for that column lies inside the selection", read from
    the spec: membership for a non-empty categorical selection, the closed
    interval for a numeric range and for a two-date range; an empty
    categorical selection (and an unfinished one-date range) restricts
    nothing. *)
Definition in_selection (k : control) (v : value) : Prop :=
  match k with
  | CCat [] => True
  | CCat sel => In v sel
  | CNum lo hi => exists z, v = VNum z /\ (lo <= z <= hi)%Z
  | CDate [s; e] => exists d, v = VDate d /\ (s <= d <= e)%Z
  | CDate _ => True
  end.

(* ------------------------------------------------------------------ *)
(** ** The backing CSV file *)

(** A CSV file as its lines, each a list of cells (quoting is left out:
    pandas writes and reads back each cell's text). *)
Definition csv_file := list (list string).

Definition pad2 (n : Z) : string :=
  if Z.ltb n 10%Z then ("0" +:+ pretty n)%string else pretty n.

(** How [to_csv] writes a cell. *)
Definition render_value (v : value) : string :=
  match v with
  | VNaN => ""
  | VStr s => s
  | VNum z => pretty z
  | VDate k =>
      (pretty (k / 10000)%Z +:+ "-" +:+ pad2 ((k / 100) mod 100)%Z +:+ "-"
       +:+ pad2 (k mod 100)%Z)%string
  end.

(** [df.to_csv(path, index=False)]: the header line, then one line per row. *)
Definition to_csv (t : table) : csv_file :=
  map col_name (columns t)
  :: map (fun r => map (fun i => render_value (cell r i))
                       (seq 0 (length (columns t)))) (rows t).

(** pandas' default [na_values]. *)
Definition na_values : list string :=
  [""; "#N/A"; "#N/A N/A"; "#NA"; "-1.#IND"; "-1.#QNAN"; "-NaN"; "-nan";
   "1.#IND"; "1.#QNAN"; "<NA>"; "N/A"; "NA"; "NULL"; "NaN"; "None"; "n/a";
   "nan"; "null"].

Definition is_na_str (s : string) : bool := existsb (String.eqb s) na_values.

Fixpoint parse_digits (s : string) (acc : Z) : option Z :=
  match s with
  | EmptyString => Some acc
  | String c s' =>
      let n := nat_of_ascii c in
      if (48 <=? n)%nat && (n <=? 57)%nat
      then parse_digits s' (acc * 10 + Z.of_nat (n - 48))%Z
      else None
  end.

(** An integer cell: an optional minus sign and at least one digit. *)
Definition parse_int (s : string) : option Z :=
  match s with
  | EmptyString => None
  | String c s' =>
      if Ascii.eqb c "-"%char then
        match s' with
        | EmptyString => None
        | _ => option_map Z.opp (parse_digits s' 0%Z)
        end
      else parse_digits s 0%Z
  end.

(** dtype inference of [read_csv] on one column's cells: numeric when every
    cell is missing or a number, object otherwise; a header-only column is
    object. *)
Definition infer_column (cells : list string) : dtype * list value :=
  match cells with
  | [] => (DObject, [])
  | _ =>
      if forallb (fun s => is_na_str s || bool_decide (is_Some (parse_int s))) cells
      then (DNumeric,
            map (fun s => if is_na_str s then VNaN
                          else match parse_int s with Some z => VNum z | None => VNaN end)
                cells)
      else (DObject, map (fun s => if is_na_str s then VNaN else VStr s) cells)
  end.

(** pandas' de-duplication of header names ([_dedup_names]):
    a repeated [col] becomes [col.1], [col.2], ... *)
Fixpoint dedup_name (fuel : nat) (counts : gmap string nat) (col : string)
    (cur : nat) : string * gmap string nat :=
  match fuel, cur with
  | _, O => (col, <[col := 1%nat]> counts)
  | O, S _ => (col, <[col := S cur]> counts)
  | S f, S _ =>
      let counts' := <[col := S cur]> counts in
      let col' := (col +:+ "." +:+ pretty cur)%string in
      dedup_name f counts' col' (default 0%nat (counts' !! col'))
  end.

Fixpoint dedup_names_go (fuel : nat) (counts : gmap string nat)
    (names : list string) : list string :=
  match names with
  | [] => []
  | n :: ns =>
      let '(n', counts') := dedup_name fuel counts n (default 0%nat (counts !! n)) in
      n' :: dedup_names_go fuel counts' ns
  end.

Definition dedup_names (names : list string) : list string :=
  dedup_names_go (S (length names)) ∅ names.

(** [pd.read_csv(path)]; [None] is the [EmptyDataError] of a file with no
    header line. Empty header cells are named [Unnamed: i]. *)
Definition read_csv (f : csv_file) : option table :=
  match f with
  | [] | [] :: _ => None
  | header :: data =>
      let names :=
        dedup_names (imap (fun i n => if String.eqb n "" then ("Unnamed: " +:+ pretty i)%string
                                      else n) header) in
      let cols := imap (fun i _ => infer_column (map (fun line => nth i line "") data)) names in
      Some (mkTable (zip_with (fun n dc => mkColumn n (fst dc)) names cols)
                    (map (fun k => map (fun dc => nth k (snd dc) VNaN) cols)
                         (seq 0 (length data))))
  end.

(* ------------------------------------------------------------------ *)
(** ** The data store *)

(** Python's [str.isspace] on ASCII. *)
Definition is_space (c : ascii) : bool :=
  let n := nat_of_ascii c in
  ((9 <=? n) && (n <=? 13))%nat || ((28 <=? n) && (n <=? 32))%nat.

Fixpoint lstrip (s : string) : string :=
  match s with
  | EmptyString => EmptyString
  | String c s' => if is_space c then lstrip s' else s
  end.

Fixpoint rstrip (s : string) : string :=
  match s with
  | EmptyString => EmptyString
  | String c s' =>
      let r := rstrip s' in
      match r with
      | EmptyString => if is_space c then EmptyString else String c EmptyString
      | _ => String c r
      end
  end.

(** [col.replace('\n', ' ')] *)
Fixpoint replace_newlines (s : string) : string :=
  match s with
  | EmptyString => EmptyString
  | String c s' =>
      String (if Ascii.eqb c (ascii_of_nat 10) then " "%char else c) (replace_newlines s')
  end.

(** [col.replace('\n', ' ').strip()] *)
Definition normalize_name (s : string) : string := lstrip (rstrip (replace_newlines s)).

(** [df.columns = [col.replace('\n', ' ').strip() for col in df.columns]] *)
Definition normalize_columns (t : table) : table :=
  mkTable (map (fun c => mkColumn (normalize_name (col_name c)) (col_dtype c)) (columns t))
          (rows t).

(** The store: [st.session_state.pipeline_data] and the two CSV files. *)
Record store := mkStore {
  session_data : option table;
  data_file : option csv_file;         (* data/pipeline_data.csv *)
  sample_file : option csv_file        (* data/sample_pipeline_data.csv *)
}.

Definition set_session (s : store) (t : table) : store :=
  mkStore (Some t) (data_file s) (sample_file s).

Definition default_columns : list string :=
  ["Country"; "Project"; "Vessel"; "Pipe Type"; "Line Type";
   "Pipe OD"; "Pipe Wall Thickness"; "Coating Thickness";
   "Steel Density"; "Coating Density"; "Clad Thickness";
   "Vessel Name"; "Water Depth"; "Estimated Optimal JLT Angle"; "JLT Angle";
   "Installation Date"].

(** [pd.DataFrame(columns=columns)] *)
Definition default_table : table :=
  mkTable (map (fun n => mkColumn n DObject) default_columns) [].

(** [pd.DataFrame()] *)
Definition empty_dataframe : table := mkTable [] [].

(** [load_pipeline_data()]: the session table when it is non-empty, else
    the data file, else the sample file (with its header names cleaned),
    else the default schema; a read error yields [pd.DataFrame()]. *)
Definition load_pipeline_data (s : store) : table * store :=
  let from_files :=
    match data_file s with
    | Some f =>
        match read_csv f with
        | Some df => (df, set_session s df)
        | None => (empty_dataframe, s)
        end
    | None =>
        match sample_file s with
        | Some f =>
            match read_csv f with
            | Some df => let df' := normalize_columns df in (df', set_session s df')
            | None => (empty_dataframe, s)
            end
        | None => (default_table, set_session s default_table)
        end
    end in
  match session_data s with
  | Some t => if negb (df_empty t) then (t, s) else from_files
  | None => from_files
  end.

(** The outcome of the file write in [save_pipeline_data]: success, a
    failure before the file is opened ([os.makedirs] or [open] raising), or
    a failure after the first [k] lines were written. *)
Inductive io_outcome := IOOk | IOFailBeforeWrite | IOFailAfter (k : nat).

(** [save_pipeline_data(df)]: write the CSV, then update the session; any
    exception returns [False] before the session is updated. *)
Definition save_pipeline_data (s : store) (df : table) (io : io_outcome) : bool * store :=
  match io with
  | IOOk => (true, mkStore (Some df) (Some (to_csv df)) (sample_file s))
  | IOFailBeforeWrite => (false, s)
  | IOFailAfter k => (false, mkStore (session_data s) (Some (firstn k (to_csv df))) (sample_file s))
  end.

(** The upload path of [main] (lines 225-239) once the file is parsed into
    [new_df]: clean the column names, then save. *)
Definition upload_spreadsheet (s : store) (new_df : table) (io : io_outcome) : bool * store :=
  save_pipeline_data s (normalize_columns new_df) io.


(** Whether a column keeps its dtype when [pd.concat] appends a value to
    it: an object column takes anything, a numeric column numbers and NaN,
    a datetime64 column only NaN (a Python [date] makes it object). *)
Definition keeps_dtype (d : dtype) (v : value) : bool :=
  match d, v with
  | DObject, _ => true
  | DNumeric, (VNum _ | VNaN) => true
  | DDatetime, VNaN => true
  | _, _ => false
  end.

Definition dtype_of_new (v : value) : dtype :=
  match v with VNum _ => DNumeric | _ => DObject end.

Fixpoint dict_get (k : string) (kvs : list (string * value)) : option value :=
  match kvs with
  | [] => None
  | (k', v) :: kvs' => if String.eqb k k' then Some v else dict_get k kvs'
  end.

(** [pd.concat([df, pd.DataFrame([new_data])], ignore_index=True)]:
    the columns of [df], then the new keys; old rows get NaN in the new
    columns and the new row gets NaN in the columns it lacks. *)
Definition concat_row (df : table) (new_data : list (string * value)) : table :=
  let n := length (columns df) in
  let new_keys := List.filter (fun kv => negb (existsb (fun c => String.eqb (col_name c) kv.1)
                                                        (columns df))) new_data in
  let new_row := map (fun c => default VNaN (dict_get (col_name c) new_data)) (columns df)
                 ++ map snd new_keys in
  let cols := map (fun c => mkColumn (col_name c)
                     (if keeps_dtype (col_dtype c) (default VNaN (dict_get (col_name c) new_data))
                      then col_dtype c else DObject)) (columns df)
              ++ map (fun kv => mkColumn kv.1 (dtype_of_new kv.2)) new_keys in
  mkTable cols
    (map (fun r => map (cell r) (seq 0 n) ++ map (fun _ => VNaN) new_keys) (rows df)
     ++ [new_row]).

(** [add_new_pipeline_row(new_data)] *)
Definition add_new_pipeline_row (s : store) (new_data : list (string * value))
    (io : io_outcome) : bool * store :=
  let '(df, s1) := load_pipeline_data s in
  save_pipeline_data s1 (concat_row df new_data) io.

(** The "Add New Row" form: text inputs as strings, number inputs as
    numbers, the date input as a [yyyymmdd] date. *)
Record add_row_form := mkAddRowForm {
  country : string;
  project : string;
  vessel : string;
  pipe_type : string;
  line_type : string;
  pipe_od : Z;
  pipe_wall : Z;
  coating_thickness : Z;
  steel_density : Z;
  coating_density : Z;
  clad_thickness : Z;
  vessel_name : string;
  water_depth : Z;
  estimated_angle : Z;
  jlt_angle : Z;
  installation_date : Z
}.

(** [x if x > 0 else ''] *)
Definition positive_or_empty (x : Z) : value :=
  if Z.ltb 0 x then VNum x else VStr "".

(** [x if x != 0 else ''] *)
Definition nonzero_or_empty (x : Z) : value :=
  if Z.eqb x 0 then VStr "" else VNum x.

(** The [new_data] dict of lines 268-285. *)
Definition new_data (f : add_row_form) : list (string * value) :=
  [("Country", VStr (country f));
   ("Project", VStr (project f));
   ("Vessel", VStr (vessel f));
   ("Pipe Type", VStr (pipe_type f));
   ("Line Type", VStr (line_type f));
   ("Pipe OD", positive_or_empty (pipe_od f));
   ("Pipe Wall Thickness", positive_or_empty (pipe_wall f));
   ("Coating Thickness", positive_or_empty (coating_thickness f));
   ("Steel Density", positive_or_empty (steel_density f));
   ("Coating Density", positive_or_empty (coating_density f));
   ("Clad Thickness", positive_or_empty (clad_thickness f));
   ("Vessel Name", VStr (vessel_name f));
   ("Water Depth", positive_or_empty (water_depth f));
   ("Estimated Optimal JLT Angle", nonzero_or_empty (estimated_angle f));
   ("JLT Angle", nonzero_or_empty (jlt_angle f));
   ("Installation Date", VDate (installation_date f))].

Inductive add_row_result := RowAdded | SaveFailed | RequiredMissing.

(** The form's submit handler (lines 266-288): [if country and project:]
    build [new_data] and call [add_new_pipeline_row], else report the
    missing required fields. *)
Definition submit_add_row (s : store) (f : add_row_form) (io : io_outcome)
    : add_row_result * store :=
  if negb (String.eqb (country f) "") && negb (String.eqb (project f) "") then
    let '(ok, s') := add_new_pipeline_row s (new_data f) io in
    (if ok then RowAdded else SaveFailed, s')
  else (RequiredMissing, s).


(** The number inputs of the form declared with [min_value=0.0], paired
    with the [new_data] key they are stored under. *)
Definition zero_min_fields (f : add_row_form) : list (string * Z) :=
  [("Pipe OD", pipe_od f); ("Pipe Wall Thickness", pipe_wall f);
   ("Coating Thickness", coating_thickness f); ("Steel Density", steel_density f);
   ("Coating Density", coating_density f); ("Clad Thickness", clad_thickness f);
   ("Water Depth", water_depth f)].

(** The two JLT angle number inputs (no [min_value]). *)
Definition angle_fields (f : add_row_form) : list (string * Z) :=
  [("Estimated Optimal JLT Angle", estimated_angle f); ("JLT Angle", jlt_angle f)].

(** A line break, ['\n']. *)
Definition newline : string := String (ascii_of_nat 10) EmptyString.

(* ------------------------------------------------------------------ *)
(** ** Filter engine: row-level reading of the column loop *)

(** The row test each [apply_control] step applies. *)
Definition admits (k : control) (i : nat) (r : row) : bool :=
  match k with
  | CCat [] => true
  | CCat sel => isin (cell r i) sel
  | CNum lo hi => num_ge (cell r i) lo && num_le (cell r i) hi
  | CDate [s; e] => date_ge (cell r i) s && date_le (cell r i) e
  | CDate _ => true
  end.

(** All the column tests of the loop from position [i] on. *)
Fixpoint admitted_from (t : table) (sels : selections) (i : nat)
    (cs : list column) (r : row) : bool :=
  match cs with
  | [] => true
  | c :: cs' =>
      match control_of t sels i c with
      | Some k => admits k i r
      | None => true
      end && admitted_from t sels (S i) cs' r
  end.

(* ------------------------------------------------------------------ *)
(** ** The "Checkboxes" filter style (lines 96-100 and 132-141) *)








(* ------------------------------------------------------------------ *)
(** ** The dashboard body of [main] (lines 315-396) *)

(** The position of the first column named [name]; [name in df.columns]
    holds when there is one, and [df[name]] is that column (the tables
    built by [read_csv] have distinct names). *)
Fixpoint find_column (name : string) (cs : list column) : option nat :=
  match cs with
  | [] => None
  | c :: cs' =>
      if String.eqb (col_name c) name then Some 0
      else option_map S (find_column name cs')
  end.

Definition column_index (t : table) (name : string) : option nat :=
  find_column name (columns t).

(** [df[name].nunique() if name in df.columns else 0]: the number of
    distinct non-NaN values. *)
Definition nunique (t : table) (name : string) : nat :=
  match column_index t name with
  | Some i => length (unique_non_na (column_values t i))
  | None => 0
  end.

(** The four KPI metrics of lines 323-350, on [filtered_df]: Total
    Pipeline Lines, Unique Projects, Unique Vessels, Countries. *)
Definition kpis (filtered : table) : nat * nat * nat * nat :=
  (length (rows filtered), nunique filtered "Project",
   nunique filtered "Vessel", nunique filtered "Country").

(** The number of occurrences of [v] in [vals]. *)
Definition count_value (v : value) (vals : list value) : nat :=
  length (List.filter (fun w => bool_decide (w = v)) vals).

(** [sort_values(ascending=False)] on the counts: an insertion that puts
    an entry after every entry with a count at least as large (ties keep
    their first-occurrence order; pandas leaves the order of ties open). *)
Fixpoint insert_by_count (x : value * nat) (l : list (value * nat)) : list (value * nat) :=
  match l with
  | [] => [x]
  | y :: l' => if (snd y <? snd x)%nat then x :: l else y :: insert_by_count x l'
  end.

Definition sort_by_count (l : list (value * nat)) : list (value * nat) :=
  fold_left (fun acc x => insert_by_count x acc) l [].

(** [series.value_counts()]: each distinct non-NaN value with its number
    of occurrences, most frequent first. *)
Definition value_counts (vals : list value) : list (value * nat) :=
  let s := List.filter (fun v => negb (is_nan v)) vals in
  sort_by_count (map (fun v => (v, count_value v s)) (unique_non_na vals)).

(** The "Pipe Type Distribution" block (lines 357-370): shown when the
    column exists and is not all NaN, with [value_counts] of the column. *)
Definition pipe_type_distribution (filtered : table) : option (list (value * nat)) :=
  match column_index filtered "Pipe Type" with
  | Some i =>
      let s := column_values filtered i in
      if forallb is_nan s then None else Some (value_counts s)
  | None => None
  end.

Lemma filter_filter_andb {A} (f g : A -> bool) (l : list A) :
  List.filter g (List.filter f l) = List.filter (fun x => f x && g x) l.
Proof.
  induction l as [|x l IH]; simpl; [reflexivity|].
  destruct (f x); simpl; [destruct (g x)|]; rewrite ?IH; reflexivity.
Qed.

Lemma filter_ext_bool {A} (f g : A -> bool) (l : list A) :
  (forall x, f x = g x) -> List.filter f l = List.filter g l.
Proof.
  intros H; induction l as [|x l IH]; simpl; [reflexivity|].
  rewrite H, IH; reflexivity.
Qed.

Lemma apply_control_filter (k : control) (i : nat) (rs : list row) :
  apply_control k i rs = List.filter (admits k i) rs.
Proof.
  destruct k as [sel|lo hi|rng]; simpl.
  - destruct sel as [|v sel]; [|reflexivity].
    induction rs as [|r rs IH]; simpl; [reflexivity|]. rewrite <- IH; reflexivity.
  - reflexivity.
  - destruct rng as [|s [|e [|x rng]]]; try reflexivity;
      induction rs as [|r rs IH]; simpl; try reflexivity; rewrite <- IH; reflexivity.
Qed.

Lemma filter_columns_filter (t : table) (sels : selections) (i : nat)
    (cs : list column) (rs : list row) :
  filter_columns t sels i cs rs = List.filter (admitted_from t sels i cs) rs.
Proof.
  revert i rs; induction cs as [|c cs IH]; intros i rs; simpl.
  - induction rs as [|r rs IHr]; simpl; [reflexivity|]. rewrite <- IHr; reflexivity.
  - rewrite IH. destruct (control_of t sels i c) as [k|].
    + rewrite apply_control_filter, filter_filter_andb; reflexivity.
    + apply filter_ext_bool; reflexivity.
Qed.

Lemma admitted_from_spec (t : table) (sels : selections) (i : nat)
    (cs : list column) (r : row) :
  admitted_from t sels i cs r = true <->
  forall j c k, nth_error cs j = Some c ->
    control_of t sels (i + j) c = Some k -> admits k (i + j) r = true.
Proof.
  revert i; induction cs as [|c cs IH]; intros i; simpl.
  - split; [intros _ j c k H; destruct j; discriminate|reflexivity].
  - rewrite andb_true_iff, IH. split.
    + intros [Hc Hrest] j c' k Hj Hk. destruct j as [|j]; simpl in Hj.
      * injection Hj as <-. rewrite Nat.add_0_r in Hk.
        rewrite Nat.add_0_r, Hk in *. exact Hc.
      * replace (i + S j)%nat with (S i + j)%nat in * by lia. eauto.
    + intros H. split.
      * destruct (control_of t sels i c) as [k|] eqn:Hk; [|reflexivity].
        specialize (H 0%nat c k eq_refl). rewrite Nat.add_0_r in H. auto.
      * intros j c' k Hj Hk. replace (S i + j)%nat with (i + S j)%nat in * by lia.
        eapply H; [exact Hj|exact Hk].
Qed.

Lemma isin_In (v : value) (sel : list value) : isin v sel = true <-> In v sel.
Proof.
  unfold isin. rewrite existsb_exists. split.
  - intros [w [Hw Heq]]. apply bool_decide_eq_true in Heq. subst; exact Hw.
  - intros H. exists v. split; [exact H|]. apply bool_decide_eq_true; reflexivity.
Qed.

Lemma admits_in_selection (k : control) (i : nat) (r : row) :
  admits k i r = true <-> in_selection k (cell r i).
Proof.
  destruct k as [sel|lo hi|rng]; simpl.
  - destruct sel as [|v sel]; [tauto|]. apply isin_In.
  - unfold num_ge, num_le. destruct (cell r i) as [| |z|];
      try (split; [discriminate|intros [z' [? _]]; discriminate]).
    rewrite andb_true_iff, !Z.leb_le. split.
    + intros H; exists z; split; [reflexivity|lia].
    + intros [z' [Hz ?]]; injection Hz as <-; lia.
  - destruct rng as [|s [|e [|x rng]]]; try tauto.
    unfold date_ge, date_le, as_date. destruct (cell r i) as [| | |d];
      try (split; [discriminate|intros [d' [? _]]; discriminate]).
    rewrite andb_true_iff, !Z.leb_le. split.
    + intros H; exists d; split; [reflexivity|lia].
    + intros [d' [Hd ?]]; injection Hd as <-; lia.
Qed.

Lemma sublist_filter_bool {A} (f : A -> bool) (l : list A) :
  sublist (List.filter f l) l.
Proof.
  induction l as [|x l IH]; simpl; [constructor|].
  destruct (f x); constructor; exact IH.
Qed.

Lemma create_filter_sidebar_rows (t : table) (sels : selections) :
  rows (create_filter_sidebar t sels)
  = List.filter (admitted_from t sels 0 (columns t)) (rows t).
Proof. unfold create_filter_sidebar; simpl. apply filter_columns_filter. Qed.

(* ------------------------------------------------------------------ *)
(** ** Claims on the filter engine *)

(** C1: a row is kept by [create_filter_sidebar] exactly when it is a row
    of the table and, for every column that has a control, its value lies
    inside the control's selection: membership for a non-empty categorical
    selection, the closed interval for a numeric or a two-date range. An
    empty categorical selection restricts nothing. *)
Theorem create_filter_sidebar_in_selection (t : table) (sels : selections) (r : row) :
  In r (rows (create_filter_sidebar t sels)) <->
  In r (rows t) /\
  (forall i c k, nth_error (columns t) i = Some c ->
     control_of t sels i c = Some k -> in_selection k (cell r i)).
Proof.
  rewrite create_filter_sidebar_rows, filter_In, admitted_from_spec.
  split; intros [Hin H]; split; [exact Hin| |exact Hin|].
  - intros i c k Hc Hk. apply admits_in_selection. exact (H i c k Hc Hk).
  - intros j c k Hc Hk. apply admits_in_selection. simpl in *. exact (H j c k Hc Hk).
Qed.

(** C2: the result of [create_filter_sidebar] has the columns of the table,
    and its rows are a subsequence of the table's rows (same order, no
    duplication). *)
Theorem create_filter_sidebar_subsequence (t : table) (sels : selections) :
  sublist (rows (create_filter_sidebar t sels)) (rows t) /\
  columns (create_filter_sidebar t sels) = columns t.
Proof.
  split; [|reflexivity].
  rewrite create_filter_sidebar_rows. apply sublist_filter_bool.
Qed.

(** C10: in a numeric column whose observed minimum differs from its
    maximum the range slider is always shown, and every row kept by
    [create_filter_sidebar] has a present value in that column, whatever
    the slider's range, the default [min, max] included. *)
Theorem create_filter_sidebar_drops_missing_numeric (t : table) (sels : selections)
    (i : nat) (c : column) (mn mx : Z) :
  nth_error (columns t) i = Some c ->
  col_dtype c = DNumeric ->
  num_bounds (column_values t i) = Some (mn, mx) ->
  mn <> mx ->
  forall r, In r (rows (create_filter_sidebar t sels)) -> cell r i <> VNaN.
Proof.
  intros Hc Hd Hb Hne r Hr.
  apply create_filter_sidebar_in_selection in Hr as [_ Hsel].
  assert (Hk : exists lo hi, control_of t sels i c = Some (CNum lo hi)).
  { unfold control_of, branch_of. rewrite Hd. simpl. rewrite Hb.
    destruct (Z.eqb_spec mn mx) as [E|_]; [contradiction|].
    destruct (default (mn, mx) (sel_slider sels !! col_name c)) as [lo hi].
    eauto. }
  destruct Hk as (lo & hi & Hk).
  destruct (Hsel i c _ Hc Hk) as (z & Hz & _). rewrite Hz. discriminate.
Qed.

(* ------------------------------------------------------------------ *)
(** ** Default selections and "Select All" *)










Lemma dedup_first_In (x : value) (seen xs : list value) :
  In x xs -> In x seen \/ In x (dedup_first seen xs).
Proof.
  revert seen; induction xs as [|y xs IH]; intros seen Hx; [destruct Hx|].
  simpl. destruct (isin y seen) eqn:Ey.
  - destruct Hx as [<-|Hx]; [left; apply isin_In; exact Ey|]. exact (IH seen Hx).
  - destruct Hx as [<-|Hx]; [right; left; reflexivity|].
    destruct (IH (y :: seen) Hx) as [[<-|Hs]|Hd]; auto with datatypes.
Qed.

Lemma unique_non_na_In (v : value) (vals : list value) :
  In v vals -> v <> VNaN -> In v (unique_non_na vals).
Proof.
  intros Hv Hn. unfold unique_non_na.
  destruct (dedup_first_In v [] (List.filter (fun v => negb (is_nan v)) vals)) as [[]|H];
    [|exact H].
  apply filter_In. split; [exact Hv|]. destruct v; [contradiction|reflexivity..].
Qed.

Lemma select_all_go_notin (t : table) (i : nat) (cs : list column)
    (m : gmap string (list value)) (n : string) :
  ~ In n (map col_name cs) -> select_all_go t i cs m !! n = m !! n.
Proof.
  revert i m; induction cs as [|c cs IH]; intros i m Hn; simpl; [reflexivity|].
  simpl in Hn. rewrite IH by tauto.
  case_bool_decide; [|reflexivity]. rewrite lookup_insert_ne; [reflexivity|].
  intros E; apply Hn; left; exact E.
Qed.



Lemma clear_all_lookup (cs : list column) (m : gmap string (list value)) (n : string) :
  In n (map col_name cs) ->
  foldr (fun c m => delete (col_name c) m) m cs !! n = None.
Proof.
  induction cs as [|c cs IH]; simpl; [tauto|].
  intros [<-|Hn]; [apply lookup_delete_eq|].
  destruct (decide (col_name c = n)) as [<-|Hne]; [apply lookup_delete_eq|].
  rewrite lookup_delete_ne by exact Hne. apply IH; exact Hn.
Qed.

Lemma clear_all_lookup_notin (cs : list column) (m : gmap string (list value)) (n : string) :
  ~ In n (map col_name cs) ->
  foldr (fun c m => delete (col_name c) m) m cs !! n = m !! n.
Proof.
  induction cs as [|c cs IH]; simpl; [reflexivity|].
  intros Hn. rewrite lookup_delete_ne by (intros E; apply Hn; left; exact E).
  apply IH. tauto.
Qed.













(** A table with a missing value in a numeric column: the default slider
    range [10, 30] drops the row. *)
Definition od_with_gap : table :=
  mkTable [mkColumn "Pipe OD" DNumeric] [[VNum 10]; [VNaN]; [VNum 30]].









Lemma create_filter_sidebar_drops_missing_numeric_witness :
  In [VNum 30] (rows (create_filter_sidebar od_with_gap no_selections)) /\
  cell [VNum 30] 0 <> VNaN.
Proof.
  assert (Hin : In [VNum 30] (rows (create_filter_sidebar od_with_gap no_selections)))
    by (vm_compute; right; left; reflexivity).
  split; [exact Hin|].
  apply (create_filter_sidebar_drops_missing_numeric od_with_gap no_selections 0
           (mkColumn "Pipe OD" DNumeric) 10 30); [reflexivity|reflexivity|reflexivity|lia|exact Hin].
Defined.

(* ------------------------------------------------------------------ *)
(** ** Column classification *)

(** A CSV file with a date column, as pandas reads it back. *)
Definition dates_csv : csv_file :=
  [["Installation Date"]; ["2024-01-05"]; ["2024-03-10"]].

Definition dates_table : table :=
  mkTable [mkColumn "Installation Date" DObject]
          [[VStr "2024-01-05"]; [VStr "2024-03-10"]].

(** C5 (the failing input): a date column read from a CSV file holds
    strings and so has the object dtype; its name contains "date", yet the
    [dtype == 'object'] test comes first and the column gets the
    categorical multiselect, never the date range. *)
Lemma date_column_gets_categorical_control :
  read_csv dates_csv = Some dates_table /\
  has_date_token "Installation Date" = true /\
  branch_of (mkColumn "Installation Date" DObject) = BCategorical /\
  control_of dates_table no_selections 0 (mkColumn "Installation Date" DObject)
    = Some (CCat []).
Proof. vm_compute. repeat split. Qed.

(* ------------------------------------------------------------------ *)
(** ** Store round trip *)

Lemma df_empty_normalize_columns (t : table) :
  df_empty (normalize_columns t) = df_empty t.
Proof. destruct t as [[|c cs] [|r rs]]; reflexivity. Qed.

(** C6 (amended): for every table with at least one row and one column,
    a successful upload followed by [load_pipeline_data] returns the table
    with its column names cleaned (the copy kept in the session). *)
Theorem upload_then_load (s : store) (raw : table) :
  df_empty raw = false ->
  fst (upload_spreadsheet s raw IOOk) = true /\
  fst (load_pipeline_data (snd (upload_spreadsheet s raw IOOk))) = normalize_columns raw.
Proof.
  intros He. split; [reflexivity|].
  unfold upload_spreadsheet, save_pipeline_data, load_pipeline_data; simpl.
  rewrite df_empty_normalize_columns, He. reflexivity.
Qed.

Lemma upload_then_load_witness :
  fst (load_pipeline_data
         (snd (upload_spreadsheet (mkStore None None None)
                 (mkTable [mkColumn ("Pipe" +:+ newline +:+ "OD")%string DNumeric] [[VNum 10]])
                 IOOk)))
  = mkTable [mkColumn "Pipe OD" DNumeric] [[VNum 10]].
Proof.
  apply (upload_then_load (mkStore None None None)
           (mkTable [mkColumn ("Pipe" +:+ newline +:+ "OD")%string DNumeric] [[VNum 10]])).
  reflexivity.
Defined.

(** A header-only upload whose two column names clean to the same name. *)
Definition header_only_upload : table :=
  mkTable [mkColumn "A" DObject; mkColumn ("A" +:+ newline)%string DObject] [].

(** C6 (counterexample): a table with no rows is not kept by the session
    (the session copy is empty), so [load_pipeline_data] re-reads the CSV
    file, and pandas renames the repeated header to [A.1]: the names differ
    from the upload's names even after cleaning. *)
Lemma upload_then_load_header_only :
  map col_name (columns (fst (load_pipeline_data
    (snd (upload_spreadsheet (mkStore None None None) header_only_upload IOOk)))))
  = ["A"; "A.1"] /\
  map normalize_name (map col_name (columns (fst (load_pipeline_data
    (snd (upload_spreadsheet (mkStore None None None) header_only_upload IOOk))))))
  <> map normalize_name (map col_name (columns header_only_upload)).
Proof. split; vm_compute; [reflexivity|discriminate]. Qed.

(* ------------------------------------------------------------------ *)
(** ** Persistence failures *)

(** C7 (amended): when writing the file fails, [save_pipeline_data]
    returns [False] and the session table is left as it was; the backing
    file is either untouched or holds a prefix of the new CSV text. *)
Theorem save_failure_keeps_session (s : store) (df : table) (io : io_outcome) :
  io <> IOOk ->
  fst (save_pipeline_data s df io) = false /\
  session_data (snd (save_pipeline_data s df io)) = session_data s /\
  (data_file (snd (save_pipeline_data s df io)) = data_file s \/
   exists k, data_file (snd (save_pipeline_data s df io)) = Some (firstn k (to_csv df))).
Proof.
  intros Hio. destruct io as [| |k]; [contradiction|..]; simpl.
  - auto.
  - split; [reflexivity|split; [reflexivity|right; exists k; reflexivity]].
Qed.

Lemma save_failure_keeps_session_witness :
  session_data (snd (save_pipeline_data (mkStore (Some default_table) None None)
                      (mkTable [mkColumn "Country" DObject] [[VStr "C"]]) (IOFailAfter 1)))
  = Some default_table.
Proof.
  apply (save_failure_keeps_session (mkStore (Some default_table) None None)
           (mkTable [mkColumn "Country" DObject] [[VStr "C"]]) (IOFailAfter 1)).
  discriminate.
Defined.

(** The store after the first [load_pipeline_data] when no file exists:
    the session holds the empty default-schema table. *)
Definition first_run_store : store :=
  snd (load_pipeline_data (mkStore None None None)).

(** C7 (counterexample): on the first run, an upload whose write fails
    after the header line reports failure and keeps the session table, but
    that table is empty, so the next [load_pipeline_data] reads the
    truncated file and returns the new header instead of the prior table. *)
Lemma failed_upload_visible_to_load :
  session_data first_run_store = Some default_table /\
  fst (upload_spreadsheet first_run_store
         (mkTable [mkColumn "Country" DObject] [[VStr "C"]]) (IOFailAfter 1)) = false /\
  fst (load_pipeline_data
         (snd (upload_spreadsheet first_run_store
                 (mkTable [mkColumn "Country" DObject] [[VStr "C"]]) (IOFailAfter 1))))
  = mkTable [mkColumn "Country" DObject] [] /\
  mkTable [mkColumn "Country" DObject] [] <> default_table.
Proof. vm_compute. repeat split; discriminate. Qed.

(* ------------------------------------------------------------------ *)
(** ** The "Add New Row" form *)

Definition negative_angle_form : add_row_form :=
  mkAddRowForm "Brazil" "P-1" "" "" "" 0 0 0 0 0 0 "" 0 0 (-5) 20240105.

(** C8 (counterexample): a negative JLT angle is stored as the number, not
    as empty. *)
Lemma negative_jlt_angle_stored :
  dict_get "JLT Angle" (new_data negative_angle_form) = Some (VNum (-5)).
Proof. reflexivity. Qed.

(** C8 (amended): each number input with a zero minimum is stored as empty
    when at most zero and as the number otherwise; each JLT angle is stored
    as empty only when exactly zero, and as the number (negative ones
    included) otherwise. *)
Theorem new_data_empty_sentinels (f : add_row_form) :
  (forall name x, In (name, x) (zero_min_fields f) ->
     ((x <= 0)%Z -> dict_get name (new_data f) = Some (VStr "")) /\
     ((0 < x)%Z -> dict_get name (new_data f) = Some (VNum x))) /\
  (forall name x, In (name, x) (angle_fields f) ->
     (x = 0%Z -> dict_get name (new_data f) = Some (VStr "")) /\
     (x <> 0%Z -> dict_get name (new_data f) = Some (VNum x))).
Proof.
  split; intros name x H; simpl in H;
    repeat (destruct H as [H|H]; [injection H as <- Hx; simpl; rewrite Hx;
      unfold positive_or_empty, nonzero_or_empty;
      destruct (Z.ltb_spec 0 x), (Z.eqb_spec x 0);
      split; intros; (reflexivity || lia) |]);
    destruct H.
Qed.

(** C9: when the country or the project is left blank, submitting the
    form changes nothing: the store (session table and files) is returned
    as it was, with the "required fields" error. *)
Theorem submit_blank_rejected (s : store) (f : add_row_form) (io : io_outcome) :
  country f = "" \/ project f = "" ->
  submit_add_row s f io = (RequiredMissing, s).
Proof.
  intros [H|H]; unfold submit_add_row; rewrite H; simpl;
    [reflexivity|rewrite andb_false_r; reflexivity].
Qed.

Lemma submit_blank_rejected_witness :
  submit_add_row first_run_store
    (mkAddRowForm "Brazil" "" "" "" "" 10 0 0 0 0 0 "" 0 0 0 20240105) IOOk
  = (RequiredMissing, first_run_store).
Proof. apply submit_blank_rejected. right. reflexivity. Defined.

(* ------------------------------------------------------------------ *)
(** ** Further properties of the code *)

(** Reruns: loading a second time from the store the first load left
    returns the same table and leaves the store as it was. *)
Theorem load_pipeline_data_stable (s : store) :
  load_pipeline_data (snd (load_pipeline_data s)) = load_pipeline_data s.
Proof.
  destruct s as [sess df sf].
  destruct sess as [t|]; [destruct (df_empty t) eqn:Et|];
  destruct df as [f|];
  first [destruct (read_csv f) as [d|] eqn:Ed
        |destruct sf as [g|]; [destruct (read_csv g) as [d|] eqn:Ed|]];
  unfold load_pipeline_data; simpl;
  repeat match goal with
         | H : ?x = _ |- context [?x] => rewrite H; simpl
         | |- context [df_empty ?d] => destruct (df_empty d) eqn:?; simpl
         end; reflexivity.
Qed.

Lemma replace_newlines_idem (s : string) :
  replace_newlines (replace_newlines s) = replace_newlines s.
Proof.
  induction s as [|c s IH]; simpl; [reflexivity|]. rewrite IH. f_equal.
  destruct (Ascii.eqb c (ascii_of_nat 10)) eqn:E; [reflexivity|rewrite E; reflexivity].
Qed.

Lemma replace_newlines_lstrip (s : string) :
  replace_newlines s = s -> replace_newlines (lstrip s) = lstrip s.
Proof.
  induction s as [|c s IH]; simpl; [reflexivity|]. intros H.
  injection H as Hc Hs. destruct (is_space c); [apply IH; exact Hs|].
  simpl. rewrite Hc, Hs. reflexivity.
Qed.

Lemma replace_newlines_rstrip (s : string) :
  replace_newlines s = s -> replace_newlines (rstrip s) = rstrip s.
Proof.
  induction s as [|c s IH]; simpl; [reflexivity|]. intros H.
  injection H as Hc Hs. specialize (IH Hs).
  destruct (rstrip s) as [|c' s'] eqn:E.
  - destruct (is_space c); simpl; [reflexivity|rewrite Hc; reflexivity].
  - simpl. rewrite Hc. simpl in IH. rewrite IH. reflexivity.
Qed.

Lemma rstrip_cons (c : ascii) (w : string) :
  rstrip (String c w) =
  match rstrip w with
  | EmptyString => if is_space c then EmptyString else String c EmptyString
  | _ => String c (rstrip w)
  end.
Proof. reflexivity. Qed.

Lemma rstrip_idem (s : string) : rstrip (rstrip s) = rstrip s.
Proof.
  induction s as [|c s IH]; [reflexivity|]. rewrite rstrip_cons.
  destruct (rstrip s) as [|c' s'] eqn:E.
  - destruct (is_space c) eqn:Ec; [reflexivity|].
    rewrite rstrip_cons; simpl; rewrite Ec; reflexivity.
  - rewrite rstrip_cons, IH. reflexivity.
Qed.

Lemma rstrip_fixed_tail (c : ascii) (w : string) :
  rstrip (String c w) = String c w -> rstrip w = w.
Proof.
  simpl. destruct (rstrip w) as [|c' w'] eqn:E.
  - destruct (is_space c); [discriminate|]. intros H; injection H as <-. reflexivity.
  - intros H; injection H as <-. reflexivity.
Qed.

Lemma rstrip_lstrip_fixed (s : string) :
  rstrip s = s -> rstrip (lstrip s) = lstrip s.
Proof.
  induction s as [|c s IH]; intros H; [reflexivity|]. simpl lstrip.
  destruct (is_space c); [apply IH; exact (rstrip_fixed_tail c s H)|exact H].
Qed.

Lemma lstrip_idem (s : string) : lstrip (lstrip s) = lstrip s.
Proof.
  induction s as [|c s IH]; simpl; [reflexivity|].
  destruct (is_space c) eqn:Ec; [exact IH|simpl; rewrite Ec; reflexivity].
Qed.

(** Cleaning a column name twice gives the same name as cleaning it once:
    an already-clean header is kept as it is. *)
Theorem normalize_name_idem (s : string) :
  normalize_name (normalize_name s) = normalize_name s.
Proof.
  unfold normalize_name.
  set (u := lstrip (rstrip (replace_newlines s))).
  assert (Hu : replace_newlines u = u).
  { apply replace_newlines_lstrip, replace_newlines_rstrip, replace_newlines_idem. }
  rewrite Hu. unfold u. rewrite rstrip_lstrip_fixed by apply rstrip_idem.
  apply lstrip_idem.
Qed.

Lemma dedup_names_go_id (fuel : nat) (counts : gmap string nat) (names : list string) :
  NoDup names -> (forall n, In n names -> counts !! n = None) ->
  dedup_names_go fuel counts names = names.
Proof.
  revert counts; induction names as [|n ns IH]; intros counts Hnd Hc; [reflexivity|].
  apply NoDup_cons in Hnd as [Hn Hnd]. simpl.
  rewrite (Hc n (or_introl eq_refl)). simpl.
  destruct fuel; simpl; f_equal; apply IH; try exact Hnd;
    intros m Hm; rewrite lookup_insert_ne;
    [apply Hc; right; exact Hm| |apply Hc; right; exact Hm|];
    intros <-; apply Hn; apply list_elem_of_In; exact Hm.
Qed.

Lemma imap_id {A} (f : nat -> A -> A) (l : list A) :
  (forall i x, In x l -> f i x = x) -> imap f l = l.
Proof.
  revert f; induction l as [|x l IH]; intros f H; [reflexivity|].
  rewrite imap_cons, (H 0%nat x (or_introl eq_refl)). f_equal.
  apply IH. intros i y Hy. apply H. right; exact Hy.
Qed.

Lemma map_col_name_zip_with (ns : list string) (ds : list (dtype * list value)) :
  length ds = length ns ->
  map col_name (zip_with (fun n dc => mkColumn n (fst dc)) ns ds) = ns.
Proof.
  revert ds; induction ns as [|n ns IH]; intros [|d ds] H; simpl in *;
    try discriminate; [reflexivity|]. f_equal. apply IH. lia.
Qed.

Lemma read_csv_cons (header : list string) (data : list (list string)) :
  header <> [] ->
  read_csv (header :: data) =
  let names :=
    dedup_names (imap (fun i n => if String.eqb n "" then ("Unnamed: " +:+ pretty i)%string
                                  else n) header) in
  let cols := imap (fun i _ => infer_column (map (fun line => nth i line "") data)) names in
  Some (mkTable (zip_with (fun n dc => mkColumn n (fst dc)) names cols)
                (map (fun k => map (fun dc => nth k (snd dc) VNaN) cols)
                     (seq 0 (length data)))).
Proof. destruct header; [contradiction|reflexivity]. Qed.

(** Export then re-import ([to_csv], then [read_csv]): a table with at
    least one column, distinct and non-empty column names comes back with
    the same column names, in order, and the same number of rows. *)
Theorem csv_roundtrip_header (t : table) :
  columns t <> [] ->
  NoDup (map col_name (columns t)) ->
  (forall c, In c (columns t) -> col_name c <> ""%string) ->
  exists t', read_csv (to_csv t) = Some t' /\
    map col_name (columns t') = map col_name (columns t) /\
    length (rows t') = length (rows t).
Proof.
  intros Hne Hnd Hnm. unfold to_csv.
  rewrite read_csv_cons by (destruct (columns t); [contradiction|discriminate]).
  eexists; split; [reflexivity|]. cbn zeta. cbn [columns rows].
  rewrite imap_id.
  2:{ intros i n Hn. apply in_map_iff in Hn as [c0 [<- Hc0]].
      destruct (String.eqb_spec (col_name c0) "") as [E|_]; [|reflexivity].
      exfalso; exact (Hnm c0 Hc0 E). }
  unfold dedup_names. rewrite dedup_names_go_id by (try exact Hnd; intros; apply lookup_empty).
  split.
  - apply map_col_name_zip_with. apply length_imap.
  - rewrite length_map, length_seq, length_map. reflexivity.
Qed.

Lemma concat_row_not_empty (df : table) (nd : list (string * value)) :
  nd <> [] -> df_empty (concat_row df nd) = false.
Proof.
  intros Hnd. unfold df_empty.
  destruct (columns (concat_row df nd)) as [|c cs] eqn:Ec.
  - exfalso. unfold concat_row in Ec; cbn [columns] in Ec.
    apply app_eq_nil in Ec as [E1 E2]. apply map_eq_nil in E1, E2.
    rewrite E1 in E2. destruct nd as [|kv nd]; [contradiction|].
    simpl in E2. discriminate.
  - destruct (rows (concat_row df nd)) as [|r rs] eqn:Er; [|reflexivity].
    exfalso. unfold concat_row in Er; cbn [rows] in Er.
    apply app_eq_nil in Er as [_ E]. discriminate.
Qed.

(** Submitting the form with Country and Project filled in and a save that
    succeeds reports success, and the next [load_pipeline_data] returns the
    loaded table with the form's row appended by [pd.concat]. *)
Theorem submit_add_row_appends (s : store) (f : add_row_form) :
  country f <> ""%string -> project f <> ""%string ->
  let '(res, s') := submit_add_row s f IOOk in
  res = RowAdded /\
  fst (load_pipeline_data s') = concat_row (fst (load_pipeline_data s)) (new_data f).
Proof.
  intros Hc Hp. unfold submit_add_row.
  rewrite (proj2 (String.eqb_neq _ _) Hc), (proj2 (String.eqb_neq _ _) Hp). simpl.
  unfold add_new_pipeline_row.
  destruct (load_pipeline_data s) as [df s1]. simpl.
  split; [reflexivity|].
  unfold load_pipeline_data at 1; cbn [session_data].
  rewrite concat_row_not_empty by discriminate. reflexivity.
Qed.

Lemma submit_add_row_appends_witness :
  let f := mkAddRowForm "Brazil" "P1" "V1" "Rigid" "Flowline" 10 1 0 7850 0 0
             "V1" 1500 0 (-3) 20240101 in
  country f <> ""%string /\ project f <> ""%string /\
  let '(res, s') := submit_add_row (mkStore None None None) f IOOk in
  res = RowAdded /\
  fst (load_pipeline_data s') = concat_row (fst (load_pipeline_data (mkStore None None None))) (new_data f).
Proof.
  intros f. split; [discriminate|]. split; [discriminate|].
  exact (submit_add_row_appends (mkStore None None None) f ltac:(discriminate) ltac:(discriminate)).
Defined.

Lemma csv_roundtrip_header_witness :
  let t := mkTable [mkColumn "Country" DObject; mkColumn "Pipe OD" DNumeric]
                   [[VStr "Brazil"; VNum 10]; [VNaN; VNaN]] in
  (columns t <> [] /\ NoDup (map col_name (columns t)) /\
   (forall c, In c (columns t) -> col_name c <> ""%string)) /\
  exists t', read_csv (to_csv t) = Some t' /\
    map col_name (columns t') = map col_name (columns t) /\
    length (rows t') = length (rows t).
Proof.
  intros t.
  assert (H1 : columns t <> []) by discriminate.
  assert (H2 : NoDup (map col_name (columns t)))
    by (apply (bool_decide_unpack _); vm_compute; exact I).
  assert (H3 : forall c, In c (columns t) -> col_name c <> ""%string)
    by (intros c [<-|[<-|[]]]; discriminate).
  split; [split; [exact H1|split; [exact H2|exact H3]]|].
  exact (csv_roundtrip_header t H1 H2 H3).
Defined.

(** "Clear All" undoes "Select All": pressing Select All and then Clear All
    leaves the same widget state as pressing Clear All alone. *)
Theorem clear_all_select_all (t : table) (sels : selections) :
  clear_all t (select_all t sels) = clear_all t sels.
Proof.
  unfold clear_all, select_all; cbn [sel_filter sel_slider sel_date]. f_equal.
  apply map_eq. intros n.
  destruct (in_dec string_dec n (map col_name (columns t))) as [Hn|Hn].
  - rewrite !clear_all_lookup by exact Hn. reflexivity.
  - rewrite !clear_all_lookup_notin by exact Hn. apply select_all_go_notin. exact Hn.
Qed.

Lemma dedup_first_length (seen xs : list value) :
  (length (dedup_first seen xs) <= length xs)%nat.
Proof.
  revert seen; induction xs as [|x xs IH]; intros seen; simpl; [lia|].
  destruct (isin x seen); simpl; [specialize (IH seen)|specialize (IH (x :: seen))]; lia.
Qed.

Lemma length_filter_le {A} (f : A -> bool) (l : list A) :
  (length (List.filter f l) <= length l)%nat.
Proof. induction l as [|x l IH]; simpl; [lia|]. destruct (f x); simpl; lia. Qed.

Lemma nunique_le_rows (t : table) (name : string) :
  (nunique t name <= length (rows t))%nat.
Proof.
  unfold nunique. destruct (column_index t name) as [i|]; [|lia].
  unfold unique_non_na, column_values.
  etransitivity; [apply dedup_first_length|].
  etransitivity; [apply length_filter_le|]. rewrite length_map. lia.
Qed.

(** The KPI row on the filtered table: each "unique" count is at most the
    "Total Pipeline Lines" metric, which is at most the number of rows of
    the loaded table (the "Showing N of M" line has N <= M). *)
Theorem kpis_bounded (t : table) (sels : selections) :
  let '(total, projects, vessels, countries) := kpis (create_filter_sidebar t sels) in
  (projects <= total /\ vessels <= total /\ countries <= total /\
   total <= length (rows t))%nat.
Proof.
  unfold kpis. split; [apply nunique_le_rows|].
  split; [apply nunique_le_rows|]. split; [apply nunique_le_rows|].
  rewrite create_filter_sidebar_rows. apply length_filter_le.
Qed.

Fixpoint sum_counts (l : list (value * nat)) : nat :=
  match l with [] => 0 | x :: l' => snd x + sum_counts l' end.

Lemma sum_counts_insert (x : value * nat) (l : list (value * nat)) :
  sum_counts (insert_by_count x l) = snd x + sum_counts l.
Proof.
  induction l as [|y l IH]; simpl; [reflexivity|].
  destruct (snd y <? snd x)%nat; simpl; [reflexivity|]. rewrite IH. lia.
Qed.

Lemma sum_counts_sort (l acc : list (value * nat)) :
  sum_counts (fold_left (fun acc x => insert_by_count x acc) l acc)
  = sum_counts acc + sum_counts l.
Proof.
  revert acc; induction l as [|x l IH]; intros acc; simpl; [lia|].
  rewrite IH, sum_counts_insert. lia.
Qed.

Lemma dedup_first_nodup (seen xs : list value) :
  List.NoDup (dedup_first seen xs) /\
  (forall x, In x (dedup_first seen xs) -> ~ In x seen).
Proof.
  revert seen; induction xs as [|x xs IH]; intros seen; simpl.
  - split; [constructor|tauto].
  - destruct (isin x seen) eqn:Ex; [apply IH|].
    destruct (IH (x :: seen)) as [Hnd Hout]. split.
    + constructor; [|exact Hnd]. intros Hx. apply (Hout x Hx). left; reflexivity.
    + intros y [<-|Hy].
      * intros Hin. apply isin_In in Hin. congruence.
      * intros Hin. apply (Hout y Hy). right; exact Hin.
Qed.

Lemma count_value_cons (v x : value) (l : list value) :
  count_value v (x :: l) = (if bool_decide (x = v) then 1 else 0) + count_value v l.
Proof. unfold count_value; simpl. destruct (bool_decide (x = v)); reflexivity. Qed.

Lemma sum_indicator (u : list value) (x : value) :
  List.NoDup u -> In x u ->
  fold_right (fun v acc => (if bool_decide (x = v) then 1 else 0) + acc) 0 u = 1.
Proof.
  induction u as [|v u IH]; intros Hnd Hx; [destruct Hx|].
  inversion Hnd as [|? ? Hv Hnd']; subst. simpl.
  destruct Hx as [->|Hx].
  - rewrite bool_decide_true by reflexivity.
    enough (fold_right (fun w acc => (if bool_decide (x = w) then 1 else 0) + acc) 0 u = 0) by lia.
    clear IH Hnd Hnd'. induction u as [|w u IHu]; simpl; [reflexivity|].
    rewrite bool_decide_false by (intros <-; apply Hv; left; reflexivity).
    apply IHu. intros H; apply Hv; right; exact H.
  - rewrite bool_decide_false by (intros ->; contradiction).
    simpl. apply IH; assumption.
Qed.

Lemma sum_counts_distinct (u s : list value) :
  List.NoDup u -> (forall x, In x s -> In x u) ->
  sum_counts (map (fun v => (v, count_value v s)) u) = length s.
Proof.
  intros Hnd. induction s as [|x s IH]; intros Hs.
  - simpl. clear Hnd Hs. induction u as [|v u IHu]; simpl; [reflexivity|].
    exact IHu.
  - assert (Hsplit : forall u', sum_counts (map (fun v => (v, count_value v (x :: s))) u')
              = fold_right (fun v acc => (if bool_decide (x = v) then 1 else 0) + acc) 0 u'
                + sum_counts (map (fun v => (v, count_value v s)) u')).
    { induction u' as [|v u' IHu']; simpl; [reflexivity|].
      rewrite count_value_cons, IHu'. lia. }
    rewrite Hsplit, sum_indicator by (try assumption; apply Hs; left; reflexivity).
    rewrite IH by (intros y Hy; apply Hs; right; exact Hy). reflexivity.
Qed.

Lemma value_counts_total (vals : list value) :
  sum_counts (value_counts vals)
  = length (List.filter (fun v => negb (is_nan v)) vals).
Proof.
  unfold value_counts, sort_by_count. rewrite sum_counts_sort. simpl.
  apply sum_counts_distinct.
  - apply dedup_first_nodup.
  - intros x Hx. apply filter_In in Hx as [Hx Hn].
    apply unique_non_na_In; [exact Hx|]. intros ->. discriminate.
Qed.

(** The Pipe Type Distribution, when shown: its counts add up to the
    number of rows whose Pipe Type is not missing, which is positive and at
    most [len(filtered_df)]; the percentages of the details list therefore
    add up to 100% only when no Pipe Type is missing. *)
Theorem pipe_type_counts_total (ft : table) (i : nat) (vc : list (value * nat)) :
  column_index ft "Pipe Type" = Some i ->
  pipe_type_distribution ft = Some vc ->
  sum_counts vc = length (List.filter (fun r => negb (is_nan (cell r i))) (rows ft)) /\
  (0 < sum_counts vc <= length (rows ft))%nat.
Proof.
  intros Hi Hd. unfold pipe_type_distribution in Hd. rewrite Hi in Hd. cbn zeta in Hd.
  destruct (forallb is_nan (column_values ft i)) eqn:Ea; [discriminate|].
  injection Hd as <-. rewrite value_counts_total.
  assert (Hf : length (List.filter (fun v => negb (is_nan v)) (column_values ft i))
               = length (List.filter (fun r => negb (is_nan (cell r i))) (rows ft))).
  { unfold column_values. induction (rows ft) as [|r rs IH]; simpl; [reflexivity|].
    destruct (negb (is_nan (cell r i))); simpl; rewrite IH; reflexivity. }
  rewrite Hf. split; [reflexivity|]. split; [|apply length_filter_le].
  unfold column_values in Ea. clear Hf Hi.
  induction (rows ft) as [|r rs IH]; simpl in Ea |- *; [discriminate|].
  destruct (is_nan (cell r i)); simpl in Ea |- *; [exact (IH Ea)|lia].
Qed.

Lemma pipe_type_counts_total_witness :
  column_index (mkTable [mkColumn "Pipe Type" DObject]
                  [[VStr "Rigid"]; [VStr "Flexible"]; [VStr "Rigid"]; [VNaN]]) "Pipe Type" = Some 0 /\
  pipe_type_distribution (mkTable [mkColumn "Pipe Type" DObject]
                  [[VStr "Rigid"]; [VStr "Flexible"]; [VStr "Rigid"]; [VNaN]])
    = Some [(VStr "Rigid", 2); (VStr "Flexible", 1)] /\
  sum_counts [(VStr "Rigid", 2); (VStr "Flexible", 1)] = 3 /\
  (0 < sum_counts [(VStr "Rigid", 2); (VStr "Flexible", 1)] <= 4)%nat.
Proof.
  assert (H1 : column_index (mkTable [mkColumn "Pipe Type" DObject]
                  [[VStr "Rigid"]; [VStr "Flexible"]; [VStr "Rigid"]; [VNaN]]) "Pipe Type" = Some 0)
    by reflexivity.
  assert (H2 : pipe_type_distribution (mkTable [mkColumn "Pipe Type" DObject]
                  [[VStr "Rigid"]; [VStr "Flexible"]; [VStr "Rigid"]; [VNaN]])
               = Some [(VStr "Rigid", 2); (VStr "Flexible", 1)]) by (vm_compute; reflexivity).
  destruct (pipe_type_counts_total _ _ _ H1 H2) as [H3 H4].
  split; [exact H1|]. split; [exact H2|]. split; [exact H3|exact H4].
Defined.
